(** * Print-calibration pattern generator ([calibration.py])

    A shallow embedding of the calibration script: the grid planning
    arithmetic, the marker drawing loop and the composition of the two-page
    document, followed by the properties of the generator.

    Conventions of the embedding.
    - Python [int]s are [Z]. [math.floor(a / b)] on the pixel sizes of an
      image is the floor division [a / b] of [Z] (the float quotient of two
      such integers is far from the range where rounding could cross an
      integer), and Python's [%] is [Z.modulo]: both round towards minus
      infinity, as [Z.div] and [Z.modulo] do.
    - The start coordinates are Python [float]s whose values are integers or
      half-integers; they are exact dyadic rationals and are modelled in [Q].
    - An image is the history of what was done to it: opened from a file,
      rotated, drawn on.
    - The assets read by the script and the documents it writes live in a
      [World] that is threaded through the run; exceptions are the left
      summand of a sum. *)

From Stdlib Require Import ZArith QArith Lia Lqa.
From stdpp Require Import gmap strings list pretty.

Local Open Scope string_scope.
Local Open Scope list_scope.
Local Open Scope Z_scope.

(** ** Python built-ins used by the script *)

Module Py.

(** [range(n)]: [0, 1, ..., n-1], empty when [n <= 0]. *)
Definition range (n : Z) : list Z := Z.of_nat <$> seq 0 (Z.to_nat n).

(** [str(n)] / [f'{n}'] for an [int]. *)
Definition str (n : Z) : string := pretty n.

Definition startswith (p s : string) : bool := String.prefix p s.

Definition endswith (p s : string) : bool :=
  String.prefix (String.rev p) (String.rev s).

(** [os.path.join(a, p)] on a POSIX system, for two components. *)
Definition path_join (a p : string) : string :=
  if startswith "/" p then p
  else if (String.eqb a "" || endswith "/" a)%bool then a +:+ p
  else a +:+ "/" +:+ p.

End Py.

(** ** Exceptions *)

Inductive Exn : Type :=
| FileNotFoundError (path : string)
| OSError (path : string)
| Exception (msg : string).

Definition Result (A : Type) : Type := Exn + A.

Definition bind {A B : Type} (m : Result A) (k : A -> Result B) : Result B :=
  match m with
  | inl e => inl e
  | inr a => k a
  end.

Notation "x <-- m ;; k" := (bind m (fun x => k))
  (at level 100, m at next level, right associativity, only parsing).

(** ** Marker geometry (lines 40-69) *)

Definition test_size : Z := 25.
Definition test_half_size : Z := test_size / 2.
Definition test_distance : Z := 75.

Record Grid : Type := {
  matrix_size_x : Z;
  matrix_half_size_x : Z;
  matrix_size_y : Z;
  matrix_half_size_y : Z;
  start_x : Q;
  start_y : Q
}.

Definition matrix_size_error (n : Z) : Exn :=
  Exception ("matrix_size must be greater than 0; received: " +:+ Py.str n).

(** The planning part of the loop body: counts, halves and start
    coordinates, the x axis first, then the y axis, as the script has them. *)
Definition plan (print_width print_height : Z) : Result Grid :=
  let matrix_size_x := print_width / (test_size + test_distance) - 6 in
  let matrix_half_size_x := matrix_size_x / 2 in
  let matrix_size_y := print_height / (test_size + test_distance) - 6 in
  let matrix_half_size_y := matrix_size_y / 2 in
  start_x <--
    (if matrix_size_x mod 2 >? 0 then
       inr (inject_Z (print_width / 2 - matrix_half_size_x * test_distance)
            - (inject_Z matrix_half_size_x + (1 # 2)) * inject_Z test_size)%Q
     else
       if matrix_size_x <=? 0 then inl (matrix_size_error matrix_size_x)
       else
         inr (inject_Z (print_width / 2)
              - (inject_Z matrix_half_size_x - (1 # 2)) * inject_Z test_distance
              - inject_Z (matrix_half_size_x * test_size))%Q) ;;
  start_y <--
    (if matrix_size_y mod 2 >? 0 then
       inr (inject_Z (print_height / 2 - matrix_half_size_y * test_distance)
            - (inject_Z matrix_half_size_y + (1 # 2)) * inject_Z test_size)%Q
     else
       if matrix_size_y <=? 0 then inl (matrix_size_error matrix_size_y)
       else
         inr (inject_Z (print_height / 2)
              - (inject_Z matrix_half_size_y - (1 # 2)) * inject_Z test_distance
              - inject_Z (matrix_half_size_y * test_size))%Q) ;;
  inr {| matrix_size_x := matrix_size_x;
         matrix_half_size_x := matrix_half_size_x;
         matrix_size_y := matrix_size_y;
         matrix_half_size_y := matrix_half_size_y;
         start_x := start_x;
         start_y := start_y |}.

(** ** Images, drawing surfaces and documents *)

Inductive Color : Type :=
| RGB (r g b : Z)
| Named (name : string).

Record Font : Type := { font_file : string; font_size : Z }.

Definition Point : Type := (Q * Q)%type.

Inductive DrawOp : Type :=
| DrawText (xy : Point) (text : string) (fill : Color) (anchor : string)
    (font : Font)
| DrawRectangle (shape : Point * Point) (fill : Color).

(** An image is what was opened, then what was done to it. [im.copy()] is
    the identity on such values: the copy and the original share no later
    change. *)
Inductive Image : Type :=
| Opened (path : string) (size : Z * Z)
| Rotated (angle : Z) (expand : bool) (im : Image)
| Drawn (im : Image) (op : DrawOp).

(** [(im.width, im.height)]. The script rotates by quarter and half turns
    only: an expanding quarter turn swaps the sides, a turn that does not
    expand keeps the canvas. *)
Fixpoint size (im : Image) : Z * Z :=
  match im with
  | Opened _ s => s
  | Rotated angle expand im' =>
      if (expand && ((angle mod 180) =? 90))%bool
      then (snd (size im'), fst (size im'))
      else size im'
  | Drawn im' _ => size im'
  end.

Definition width (im : Image) : Z := fst (size im).
Definition height (im : Image) : Z := snd (size im).

(** The shapes and texts drawn on an image since it was opened or last
    rotated, oldest first. *)
Fixpoint drawn (im : Image) : list DrawOp :=
  match im with
  | Drawn im' op => drawn im' ++ [op]
  | _ => []
  end.

Record Document : Type := {
  pages : list Image;
  resolution : Z;
  subsampling : Z;
  quality : Z
}.

(** What the script reads and writes: the image files that can be opened
    (with their pixel sizes), the font files that can be loaded, the paths
    that can be written, and the documents written so far. *)
Record World : Type := {
  images : gmap string (Z * Z);
  fonts : gset string;
  writable : string -> bool;
  files : gmap string Document
}.

(** [Image.open(path)] *)
Definition image_open (w : World) (path : string) : Result Image :=
  match images w !! path with
  | Some s => inr (Opened path s)
  | None => inl (FileNotFoundError path)
  end.

(** [ImageFont.truetype(path, size)] *)
Definition truetype (w : World) (path : string) (sz : Z) : Result Font :=
  if decide (path ∈ fonts w)
  then inr {| font_file := path; font_size := sz |}
  else inl (OSError path).

(** [first.save(path, save_all=.., append_images=.., resolution=..,
    subsampling=.., quality=..)]: the file at [path] is replaced. *)
Definition save (w : World) (first : Image) (path : string) (save_all : bool)
    (append_images : list Image) (resolution subsampling quality : Z)
    : Result World :=
  if writable w path then
    inr {| images := images w;
           fonts := fonts w;
           writable := writable w;
           files :=
             <[path := {| pages := first :: (if save_all then append_images
                                             else []);
                          resolution := resolution;
                          subsampling := subsampling;
                          quality := quality |}]> (files w) |}
  else inl (OSError path).

(** ** The marker loop (lines 71-103) *)

Definition offset_x (x_index : Z) : Z := x_index * (test_distance + test_size).
Definition offset_y (y_index : Z) : Z := y_index * (test_distance + test_size).

Definition front_element_x (g : Grid) (x_index : Z) : Q :=
  (start_x g + inject_Z (offset_x x_index))%Q.
Definition front_element_y (g : Grid) (y_index : Z) : Q :=
  (start_y g + inject_Z (offset_y y_index))%Q.

Definition front_shape (g : Grid) (x_index y_index : Z) : Point * Point :=
  ((front_element_x g x_index, front_element_y g y_index),
   (front_element_x g x_index + inject_Z test_size,
    front_element_y g y_index + inject_Z test_size)%Q).

Definition fill (g : Grid) (x_index y_index : Z) : Color :=
  if ((x_index =? matrix_half_size_x g) || (y_index =? matrix_half_size_y g))%bool
  then Named "blue"
  else Named "black".

Definition back_element_x (g : Grid) (x_index : Z) : Q :=
  (front_element_x g x_index + inject_Z x_index
   - inject_Z (matrix_half_size_x g))%Q.
Definition back_element_y (g : Grid) (y_index : Z) : Q :=
  (front_element_y g y_index + inject_Z y_index
   - inject_Z (matrix_half_size_y g))%Q.

Definition back_shape (g : Grid) (x_index y_index : Z) : Point * Point :=
  ((back_element_x g x_index, back_element_y g y_index),
   (back_element_x g x_index + inject_Z test_size,
    back_element_y g y_index + inject_Z test_size)%Q).

Definition back_label (g : Grid) (coord_font : Font) (x_index y_index : Z)
    : DrawOp :=
  DrawText
    ((back_element_x g x_index + inject_Z test_half_size)%Q,
     (back_element_y g y_index + inject_Z test_half_size + 30)%Q)
    ("(" +:+ Py.str (x_index - matrix_half_size_x g) +:+ ", "
         +:+ Py.str (y_index - matrix_half_size_y g) +:+ ")")
    (Named "red") "mm" coord_font.

(** One turn of the inner loop on the pair (front page, back page). *)
Definition draw_marker (g : Grid) (coord_font : Font) (x_index y_index : Z)
    (s : Image * Image) : Image * Image :=
  let front_image :=
    Drawn (fst s)
      (DrawRectangle (front_shape g x_index y_index) (fill g x_index y_index)) in
  let back_image :=
    Drawn (snd s)
      (DrawRectangle (back_shape g x_index y_index) (fill g x_index y_index)) in
  let back_image := Drawn back_image (back_label g coord_font x_index y_index) in
  (front_image, back_image).

Definition draw_pattern (g : Grid) (coord_font : Font) (s : Image * Image)
    : Image * Image :=
  fold_left
    (fun s x_index =>
       fold_left (fun s y_index => draw_marker g coord_font x_index y_index s)
         (Py.range (matrix_size_y g)) s)
    (Py.range (matrix_size_x g)) s.

(** ** One paper size, and the whole run *)

Definition asset_directory : string := "assets".

(** Lines 31-33 and 36-38: a copy of the page with its label. *)
Definition label_page (im : Image) (print_width print_height : Z)
    (text : string) (font : Font) : Image :=
  Drawn im
    (DrawText (inject_Z (print_width - 180), inject_Z (print_height - 180))
       text (RGB 0 0 0) "ra" font).

(** Lines 12-103: load the template and the fonts, orient the page, label
    the two pages, plan the grid and draw the markers. *)
Definition render (paper_size : string) (w : World) : Result (Image * Image) :=
  let base_filename := paper_size +:+ "_blank.jpg" in
  let base_path := Py.path_join asset_directory base_filename in
  im <-- image_open w base_path ;;
  font <-- truetype w (Py.path_join asset_directory "arial.ttf") 40 ;;
  coord_font <-- truetype w (Py.path_join asset_directory "arial.ttf") 25 ;;
  let im := if height im >? width im then Rotated 90 true im else im in
  let print_width := width im in
  let print_height := height im in
  let front_image := label_page im print_width print_height "front" font in
  let back_image := label_page im print_width print_height "back" font in
  g <-- plan print_width print_height ;;
  inr (draw_pattern g coord_font (front_image, back_image)).

(** Lines 105-110: the two pages and the file they are saved to. *)
Definition compose (paper_size : string) (s : Image * Image) (w : World)
    : Result World :=
  let card_list := [fst s; Rotated 180 false (snd s)] in
  let pdf_path :=
    Py.path_join "calibration" (paper_size +:+ "_calibration.pdf") in
  save w (hd (fst s) card_list) pdf_path true (tl card_list) 300 0 100.

(** The body of the loop over the paper sizes. *)
Definition process (paper_size : string) (w : World) : Result World :=
  s <-- render paper_size w ;;
  compose paper_size s w.

(** [for paper_size in PaperSize]: the enumeration's values in order; the
    first exception ends the run, what was written before stays. *)
Fixpoint run (paper_sizes : list string) (w : World) : World * option Exn :=
  match paper_sizes with
  | [] => (w, None)
  | paper_size :: rest =>
      match process paper_size w with
      | inl e => (w, Some e)
      | inr w' => run rest w'
      end
  end.

(** ** The planner in the specification's words

    [plan(page_width, page_height, marker_size, spacing, margin_slots)]:
    these definitions follow the specification's formulas, with the
    geometry constants as parameters; the theorems compare them with
    [plan] above. *)

Module GridPlannerSpec.

Definition count_axis (dimension marker_size spacing margin_slots : Z) : Z :=
  dimension / (marker_size + spacing) - margin_slots.

Definition half (count : Z) : Z := count / 2.

Definition page_center (dimension : Z) : Z := dimension / 2.

Definition start_odd (dimension marker_size spacing count : Z) : Q :=
  (inject_Z (page_center dimension)
   - inject_Z (half count) * inject_Z spacing
   - (inject_Z (half count) + (1 # 2)) * inject_Z marker_size)%Q.

Definition start_even (dimension marker_size spacing count : Z) : Q :=
  (inject_Z (page_center dimension)
   - (inject_Z (half count) - (1 # 2)) * inject_Z spacing
   - inject_Z (half count) * inject_Z marker_size)%Q.

Definition start (dimension marker_size spacing count : Z) : Q :=
  if Z.odd count then start_odd dimension marker_size spacing count
  else start_even dimension marker_size spacing count.

End GridPlannerSpec.

(** ** What the loop leaves on the pages *)

(** What one turn of the inner loop draws on the front page and on the
    back page. *)
Definition front_ops (g : Grid) (x_index y_index : Z) : list DrawOp :=
  [DrawRectangle (front_shape g x_index y_index) (fill g x_index y_index)].

Definition back_ops (g : Grid) (coord_font : Font) (x_index y_index : Z)
    : list DrawOp :=
  [DrawRectangle (back_shape g x_index y_index) (fill g x_index y_index);
   back_label g coord_font x_index y_index].

(** Two points that denote the same pixel position. *)
Definition same_point (p q : Point) : Prop :=
  (fst p == fst q)%Q /\ (snd p == snd q)%Q.

(** The page sides as the script sees them after the landscape rotation. *)
Definition oriented_width (sz : Z * Z) : Z := Z.max (fst sz) (snd sz).
Definition oriented_height (sz : Z * Z) : Z := Z.min (fst sz) (snd sz).

Definition coord_font_25 : Font :=
  {| font_file := "assets/arial.ttf"; font_size := 25 |}.

(** ** Sample worlds and grids used in the examples *)

Definition sample_world (paper_size : string) (w h : Z) : World :=
  {| images :=
       {[ Py.path_join asset_directory (paper_size +:+ "_blank.jpg") := (w, h) ]};
     fonts := {[ "assets/arial.ttf" ]};
     writable := fun _ => true;
     files := ∅ |}.

Definition sample_pages : Image * Image :=
  (Opened "assets/letter_blank.jpg" (1000, 700),
   Opened "assets/letter_blank.jpg" (1000, 700)).

Definition font_40 : Font :=
  {| font_file := "assets/arial.ttf"; font_size := 40 |}.

Definition grid_1000_700 : Grid :=
  {| matrix_size_x := 4;
     matrix_half_size_x := 2;
     matrix_size_y := 1;
     matrix_half_size_y := 0;
     start_x := 675 # 2;
     start_y := 675 # 2 |}.

(** ** Names for what the script computes on the way

    The paths the script builds for a paper size, the template as oriented
    by lines 24-28 and the two labelled pages of lines 30-38, as functions
    of the template's path and pixel size. *)

Definition base_path (paper_size : string) : string :=
  Py.path_join asset_directory (paper_size +:+ "_blank.jpg").

Definition pdf_path (paper_size : string) : string :=
  Py.path_join "calibration" (paper_size +:+ "_calibration.pdf").

Definition oriented_image (path : string) (sz : Z * Z) : Image :=
  if snd sz >? fst sz then Rotated 90 true (Opened path sz)
  else Opened path sz.

Definition labelled_pages (path : string) (sz : Z * Z) : Image * Image :=
  (label_page (oriented_image path sz) (oriented_width sz)
     (oriented_height sz) "front" font_40,
   label_page (oriented_image path sz) (oriented_width sz)
     (oriented_height sz) "back" font_40).

(** ** Arithmetic of the planner *)

Ltac plan_fields :=
  eexists; split; [reflexivity |];
  do 4 (split; [reflexivity |]);
  split; cbn [start_x start_y].

Lemma py_mod2_odd (n : Z) : (n mod 2 >? 0) = Z.odd n.
Proof.
  rewrite Zmod_odd. destruct (Z.odd n); reflexivity.
Qed.

Lemma start_odd_code (dim h : Z) :
  (inject_Z (dim / 2 - h * test_distance)
   - (inject_Z h + (1 # 2)) * inject_Z test_size
   == inject_Z (dim / 2) - inject_Z h * inject_Z 75
      - (inject_Z h + (1 # 2)) * inject_Z 25)%Q.
Proof.
  unfold test_distance, test_size, Z.sub.
  rewrite inject_Z_plus, inject_Z_opp, inject_Z_mult. ring.
Qed.

Lemma start_even_code (dim h : Z) :
  (inject_Z (dim / 2) - (inject_Z h - (1 # 2)) * inject_Z test_distance
   - inject_Z (h * test_size)
   == inject_Z (dim / 2) - (inject_Z h - (1 # 2)) * inject_Z 75
      - inject_Z h * inject_Z 25)%Q.
Proof.
  unfold test_distance, test_size.
  rewrite inject_Z_mult. ring.
Qed.

(** [plan], read one axis at a time. *)
Lemma plan_inr (print_width print_height : Z) :
  let cx := print_width / 100 - 6 in
  let cy := print_height / 100 - 6 in
  (Z.odd cx = true \/ 0 < cx) ->
  (Z.odd cy = true \/ 0 < cy) ->
  exists g,
    plan print_width print_height = inr g /\
    matrix_size_x g = cx /\ matrix_half_size_x g = cx / 2 /\
    matrix_size_y g = cy /\ matrix_half_size_y g = cy / 2 /\
    (start_x g == GridPlannerSpec.start print_width 25 75 cx)%Q /\
    (start_y g == GridPlannerSpec.start print_height 25 75 cy)%Q.
Proof.
  intros cx cy Hx Hy. unfold plan.
  change (print_width / (test_size + test_distance) - 6) with cx.
  change (print_height / (test_size + test_distance) - 6) with cy.
  rewrite !py_mod2_odd.
  unfold GridPlannerSpec.start, GridPlannerSpec.start_odd,
    GridPlannerSpec.start_even, GridPlannerSpec.half,
    GridPlannerSpec.page_center.
  destruct (Z.odd cx) eqn:Ox; destruct (Z.odd cy) eqn:Oy; cbn [bind].
  - plan_fields; apply start_odd_code.
  - destruct (Z.leb_spec cy 0) as [Hle|Hgt]; [destruct Hy; [discriminate | lia] |].
    cbn [bind]. plan_fields; [apply start_odd_code | apply start_even_code].
  - destruct (Z.leb_spec cx 0) as [Hle|Hgt]; [destruct Hx; [discriminate | lia] |].
    cbn [bind]. plan_fields; [apply start_even_code | apply start_odd_code].
  - destruct (Z.leb_spec cx 0) as [Hle|Hgt]; [destruct Hx; [discriminate | lia] |].
    destruct (Z.leb_spec cy 0) as [Hle'|Hgt']; [destruct Hy; [discriminate | lia] |].
    cbn [bind]. plan_fields; apply start_even_code.
Qed.

Lemma plan_inl_x (print_width print_height : Z) :
  let cx := print_width / 100 - 6 in
  Z.even cx = true -> cx <= 0 ->
  plan print_width print_height = inl (matrix_size_error cx).
Proof.
  intros cx He Hle. unfold plan.
  change (print_width / (test_size + test_distance) - 6) with cx.
  rewrite py_mod2_odd, <- Z.negb_even, He. cbn [negb].
  destruct (Z.leb_spec cx 0); [reflexivity | lia].
Qed.

Lemma plan_inl_y (print_width print_height : Z) :
  let cx := print_width / 100 - 6 in
  let cy := print_height / 100 - 6 in
  (Z.odd cx = true \/ 0 < cx) ->
  Z.even cy = true -> cy <= 0 ->
  plan print_width print_height = inl (matrix_size_error cy).
Proof.
  intros cx cy Hx He Hle. unfold plan.
  change (print_width / (test_size + test_distance) - 6) with cx.
  change (print_height / (test_size + test_distance) - 6) with cy.
  rewrite !py_mod2_odd, <- (Z.negb_even cy), He. cbn [negb].
  destruct (Z.odd cx) eqn:Ox; cbn [bind].
  - destruct (Z.leb_spec cy 0); [reflexivity | lia].
  - destruct (Z.leb_spec cx 0); [destruct Hx; [discriminate | lia] |].
    cbn [bind]. destruct (Z.leb_spec cy 0); [reflexivity | lia].
Qed.

(** ** Arithmetic of the markers *)

Lemma back_minus_front_x (g : Grid) (c : Z) :
  (back_element_x g c - front_element_x g c
   == inject_Z (c - matrix_half_size_x g))%Q.
Proof.
  unfold back_element_x, Z.sub.
  rewrite inject_Z_plus, inject_Z_opp. ring.
Qed.

Lemma back_minus_front_y (g : Grid) (r : Z) :
  (back_element_y g r - front_element_y g r
   == inject_Z (r - matrix_half_size_y g))%Q.
Proof.
  unfold back_element_y, Z.sub.
  rewrite inject_Z_plus, inject_Z_opp. ring.
Qed.

Lemma front_pitch_x (g : Grid) (i j : Z) :
  (front_element_x g i - front_element_x g j == inject_Z (100 * (i - j)))%Q.
Proof.
  unfold front_element_x, offset_x, test_distance, test_size.
  replace (100 * (i - j)) with (i * (75 + 25) + - (j * (75 + 25))) by lia.
  rewrite (inject_Z_plus (i * _)), inject_Z_opp. ring.
Qed.

Lemma front_pitch_y (g : Grid) (i j : Z) :
  (front_element_y g i - front_element_y g j == inject_Z (100 * (i - j)))%Q.
Proof.
  unfold front_element_y, offset_y, test_distance, test_size.
  replace (100 * (i - j)) with (i * (75 + 25) + - (j * (75 + 25))) by lia.
  rewrite (inject_Z_plus (i * _)), inject_Z_opp. ring.
Qed.

Lemma back_pitch_x (g : Grid) (i j : Z) :
  (back_element_x g i - back_element_x g j == inject_Z (101 * (i - j)))%Q.
Proof.
  pose proof (front_pitch_x g i j) as H. unfold back_element_x.
  replace (101 * (i - j)) with (100 * (i - j) + i + - j) by lia.
  rewrite !inject_Z_plus, inject_Z_opp, <- H. ring.
Qed.

Lemma back_pitch_y (g : Grid) (i j : Z) :
  (back_element_y g i - back_element_y g j == inject_Z (101 * (i - j)))%Q.
Proof.
  pose proof (front_pitch_y g i j) as H. unfold back_element_y.
  replace (101 * (i - j)) with (100 * (i - j) + i + - j) by lia.
  rewrite !inject_Z_plus, inject_Z_opp, <- H. ring.
Qed.

(** ** The loop *)

Lemma elem_of_range (n i : Z) : i ∈ Py.range n <-> 0 <= i < n.
Proof.
  unfold Py.range. rewrite list_elem_of_fmap. split.
  - intros (k & -> & Hk). apply elem_of_seq in Hk. lia.
  - intros Hi. exists (Z.to_nat i). split; [lia |].
    apply elem_of_seq. lia.
Qed.

Lemma draw_column (g : Grid) (cf : Font) (x : Z) (ys : list Z)
    (s : Image * Image) :
  let s' := fold_left (fun s y => draw_marker g cf x y s) ys s in
  drawn (fst s') = drawn (fst s) ++ (ys ≫= front_ops g x) /\
  drawn (snd s') = drawn (snd s) ++ (ys ≫= back_ops g cf x).
Proof.
  revert s. induction ys as [|y ys IH]; intros s; cbn [fold_left].
  - cbn. rewrite !app_nil_r. split; reflexivity.
  - destruct (IH (draw_marker g cf x y s)) as [Hf Hb].
    cbn zeta in *. rewrite Hf, Hb. cbn [draw_marker fst snd drawn].
    rewrite !bind_cons. unfold front_ops at 2, back_ops at 2.
    rewrite <- !app_assoc. split; reflexivity.
Qed.

Lemma draw_columns (g : Grid) (cf : Font) (xs ys : list Z)
    (s : Image * Image) :
  let s' :=
    fold_left
      (fun s x => fold_left (fun s y => draw_marker g cf x y s) ys s) xs s in
  drawn (fst s') = drawn (fst s) ++ (xs ≫= fun x => ys ≫= front_ops g x) /\
  drawn (snd s') = drawn (snd s) ++ (xs ≫= fun x => ys ≫= back_ops g cf x).
Proof.
  revert s. induction xs as [|x xs IH]; intros s; cbn [fold_left].
  - cbn. rewrite !app_nil_r. split; reflexivity.
  - destruct (IH (fold_left (fun s y => draw_marker g cf x y s) ys s))
      as [Hf Hb].
    destruct (draw_column g cf x ys s) as [Hf' Hb'].
    cbn zeta in *. rewrite Hf, Hb, Hf', Hb', !bind_cons, <- !app_assoc.
    split; reflexivity.
Qed.

Lemma draw_pattern_front (g : Grid) (cf : Font) (s : Image * Image) :
  drawn (fst (draw_pattern g cf s))
  = drawn (fst s)
    ++ (Py.range (matrix_size_x g) ≫= fun x =>
        Py.range (matrix_size_y g) ≫= front_ops g x).
Proof. apply (draw_columns g cf). Qed.

Lemma draw_pattern_back (g : Grid) (cf : Font) (s : Image * Image) :
  drawn (snd (draw_pattern g cf s))
  = drawn (snd s)
    ++ (Py.range (matrix_size_x g) ≫= fun x =>
        Py.range (matrix_size_y g) ≫= back_ops g cf x).
Proof. apply (draw_columns g cf). Qed.

Lemma front_marker_drawn (g : Grid) (cf : Font) (s : Image * Image) (c r : Z) :
  0 <= c < matrix_size_x g -> 0 <= r < matrix_size_y g ->
  DrawRectangle (front_shape g c r) (fill g c r)
  ∈ drawn (fst (draw_pattern g cf s)).
Proof.
  intros Hc Hr. rewrite draw_pattern_front, elem_of_app. right.
  apply list_elem_of_bind. exists c. split; [| by apply elem_of_range].
  apply list_elem_of_bind. exists r. split; [| by apply elem_of_range].
  unfold front_ops. apply list_elem_of_singleton. reflexivity.
Qed.

Lemma back_marker_drawn (g : Grid) (cf : Font) (s : Image * Image) (c r : Z) :
  0 <= c < matrix_size_x g -> 0 <= r < matrix_size_y g ->
  DrawRectangle (back_shape g c r) (fill g c r)
  ∈ drawn (snd (draw_pattern g cf s)) /\
  back_label g cf c r ∈ drawn (snd (draw_pattern g cf s)).
Proof.
  intros Hc Hr. rewrite draw_pattern_back, !elem_of_app.
  split; right.
  all: apply list_elem_of_bind; exists c; split; [| by apply elem_of_range].
  all: apply list_elem_of_bind; exists r; split; [| by apply elem_of_range].
  all: unfold back_ops; rewrite !elem_of_cons; auto.
Qed.

(** ** One paper size *)

Lemma pdf_path_stem (paper_size : string) :
  Py.startswith "/" paper_size = false ->
  Py.path_join "calibration" (paper_size +:+ "_calibration.pdf")
  = "calibration/" +:+ paper_size +:+ "_calibration.pdf".
Proof.
  intros H. unfold Py.path_join.
  replace (Py.startswith "/" (paper_size +:+ "_calibration.pdf")) with false.
  - reflexivity.
  - destruct paper_size as [|a rest]; [reflexivity |].
    symmetry. unfold Py.startswith in *.
    change (String.prefix "/" (String a rest +:+ "_calibration.pdf"))
      with (if Ascii.ascii_dec (Ascii.Ascii true true true true false true false false) a
            then String.prefix "" (rest +:+ "_calibration.pdf") else false).
    change (String.prefix "/" (String a rest))
      with (if Ascii.ascii_dec (Ascii.Ascii true true true true false true false false) a
            then String.prefix "" rest else false) in H.
    destruct (Ascii.ascii_dec (Ascii.Ascii true true true true false true false false) a); [| reflexivity].
    destruct rest; discriminate.
Qed.

Lemma render_plan (paper_size : string) (w : World) (sz : Z * Z) :
  images w !! Py.path_join asset_directory (paper_size +:+ "_blank.jpg")
  = Some sz ->
  "assets/arial.ttf" ∈ fonts w ->
  exists front_image back_image,
    render paper_size w
    = bind (plan (oriented_width sz) (oriented_height sz))
        (fun g => inr (draw_pattern g coord_font_25 (front_image, back_image)))
    /\ length (drawn front_image) = 1%nat
    /\ length (drawn back_image) = 1%nat.
Proof.
  intros Him Hfont. unfold render, image_open. rewrite Him. cbn [bind].
  change (Py.path_join asset_directory "arial.ttf") with "assets/arial.ttf".
  unfold truetype. destruct (decide _) as [_|Hno]; [| contradiction].
  cbn [bind].
  destruct sz as [w0 h0]. unfold height, width, oriented_width, oriented_height.
  cbn [size fst snd].
  destruct (Z.gtb_spec h0 w0) as [Hgt|Hle].
  - cbn [size fst snd andb]. change (90 mod 180 =? 90) with true.
    cbn [andb fst snd].
    rewrite (Z.max_r w0 h0), (Z.min_l w0 h0) by lia.
    eexists _, _. split; [reflexivity |]. split; reflexivity.
  - cbn [size fst snd].
    rewrite (Z.max_l w0 h0), (Z.min_r w0 h0) by lia.
    eexists _, _. split; [reflexivity |]. split; reflexivity.
Qed.

Lemma run_raises (paper_size : string) (rest : list string) (w : World)
    (sz : Z * Z) (e : Exn) :
  images w !! Py.path_join asset_directory (paper_size +:+ "_blank.jpg")
  = Some sz ->
  "assets/arial.ttf" ∈ fonts w ->
  plan (oriented_width sz) (oriented_height sz) = inl e ->
  run (paper_size :: rest) w = (w, Some e).
Proof.
  intros Him Hfont Hplan.
  destruct (render_plan paper_size w sz Him Hfont) as (f & b & Hr & _).
  cbn [run]. unfold process. rewrite Hr, Hplan. reflexivity.
Qed.

Lemma render_pages (paper_size : string) (w : World) (s : Image * Image) :
  render paper_size w = inr s ->
  exists im pw ph font coord_font g,
    s = draw_pattern g coord_font
          (label_page im pw ph "front" font, label_page im pw ph "back" font).
Proof.
  unfold render. intros H.
  destruct (image_open w _) as [e|im]; [discriminate |]. cbn [bind] in H.
  destruct (truetype w _ 40) as [e|font]; [discriminate |]. cbn [bind] in H.
  destruct (truetype w _ 25) as [e|cf]; [discriminate |]. cbn [bind] in H.
  destruct (plan _ _) as [e|g]; [discriminate |]. cbn [bind] in H.
  injection H as <-. eauto 10.
Qed.

(** ** Properties of the grid planner *)

(** C1 (as amended). On each axis the marker count is
    [floor(dimension / (marker_size + spacing)) - 6] and its half is
    [floor(count / 2)]; for every page width and height whose count is
    positive on both axes, the planner returns a grid whose start coordinate
    on an axis is the odd-count formula when that axis' count is odd and the
    even-count formula when it is even, with
    [page_center = floor(dimension / 2)]. *)
Theorem plan_matches_spec (print_width print_height : Z) :
  let cx := GridPlannerSpec.count_axis print_width 25 75 6 in
  let cy := GridPlannerSpec.count_axis print_height 25 75 6 in
  0 < cx ->
  0 < cy ->
  exists g,
    plan print_width print_height = inr g /\
    matrix_size_x g = cx /\
    matrix_half_size_x g = GridPlannerSpec.half cx /\
    matrix_size_y g = cy /\
    matrix_half_size_y g = GridPlannerSpec.half cy /\
    (start_x g
     == if Z.odd cx then GridPlannerSpec.start_odd print_width 25 75 cx
        else GridPlannerSpec.start_even print_width 25 75 cx)%Q /\
    (start_y g
     == if Z.odd cy then GridPlannerSpec.start_odd print_height 25 75 cy
        else GridPlannerSpec.start_even print_height 25 75 cy)%Q.
Proof.
  intros cx cy Hx Hy.
  exact (plan_inr print_width print_height (or_intror Hx) (or_intror Hy)).
Qed.

Lemma plan_matches_spec_witness :
  0 < GridPlannerSpec.count_axis 3300 25 75 6 /\
  0 < GridPlannerSpec.count_axis 2550 25 75 6 /\
  exists g,
    plan 3300 2550 = inr g /\
    matrix_size_x g = 27 /\ matrix_half_size_x g = 13 /\
    matrix_size_y g = 19 /\ matrix_half_size_y g = 9 /\
    (start_x g == GridPlannerSpec.start_odd 3300 25 75 27)%Q /\
    (start_y g == GridPlannerSpec.start_odd 2550 25 75 19)%Q.
Proof.
  split; [reflexivity |]. split; [reflexivity |].
  apply (plan_matches_spec 3300 2550); reflexivity.
Defined.

(** C1, as stated, fails where a count is even and not positive: a page
    1000 px wide and 600 px high has 0 markers on the y axis, an even count,
    and the planner raises instead of computing the even-count start. *)
Lemma plan_even_zero_count_raises :
  GridPlannerSpec.count_axis 600 25 75 6 = 0 /\
  Z.odd (GridPlannerSpec.count_axis 600 25 75 6) = false /\
  plan 1000 600
  = inl (Exception "matrix_size must be greater than 0; received: 0") /\
  ~ (exists g,
       plan 1000 600 = inr g /\
       (start_y g == GridPlannerSpec.start_even 600 25 75 0)%Q).
Proof.
  split; [reflexivity |]. split; [reflexivity |]. split; [reflexivity |].
  intros (g & Hg & _). vm_compute in Hg. discriminate Hg.
Qed.

(** C4. Scenario A: on a 1000 x 700 px page the planner yields 4 columns and
    1 row; [start_x] is the even-count formula (and not the odd-count one),
    [start_y] is the odd-count formula (and not the even-count one). *)
Theorem scenario_A :
  exists g,
    plan 1000 700 = inr g /\
    matrix_size_x g = 4 /\ matrix_size_y g = 1 /\
    Z.even (matrix_size_x g) = true /\ Z.odd (matrix_size_y g) = true /\
    (start_x g == GridPlannerSpec.start_even 1000 25 75 4)%Q /\
    ~ (start_x g == GridPlannerSpec.start_odd 1000 25 75 4)%Q /\
    (start_y g == GridPlannerSpec.start_odd 700 25 75 1)%Q /\
    ~ (start_y g == GridPlannerSpec.start_even 700 25 75 1)%Q.
Proof.
  exists grid_1000_700.
  split; [reflexivity |]. do 4 (split; [reflexivity |]).
  split; [reflexivity |]. split; [intros H; vm_compute in H; discriminate H |].
  split; [reflexivity |]. intros H; vm_compute in H; discriminate H.
Qed.

(** ** Properties of the marker renderer *)

(** C2. For every grid index [(c, r)] of the grid, the loop draws the front
    marker at the front position and the back marker at the back position,
    and back minus front is exactly [(c - half_columns, r - half_rows)]. *)
Theorem back_marker_offset (g : Grid) (coord_font : Font) (s : Image * Image)
    (c r : Z) :
  0 <= c < matrix_size_x g ->
  0 <= r < matrix_size_y g ->
  DrawRectangle
    ((front_element_x g c, front_element_y g r),
     (front_element_x g c + inject_Z test_size,
      front_element_y g r + inject_Z test_size)%Q)
    (fill g c r)
  ∈ drawn (fst (draw_pattern g coord_font s)) /\
  DrawRectangle
    ((back_element_x g c, back_element_y g r),
     (back_element_x g c + inject_Z test_size,
      back_element_y g r + inject_Z test_size)%Q)
    (fill g c r)
  ∈ drawn (snd (draw_pattern g coord_font s)) /\
  (back_element_x g c - front_element_x g c
   == inject_Z (c - matrix_half_size_x g))%Q /\
  (back_element_y g r - front_element_y g r
   == inject_Z (r - matrix_half_size_y g))%Q.
Proof.
  intros Hc Hr.
  split; [exact (front_marker_drawn g coord_font s c r Hc Hr) |].
  split; [exact (proj1 (back_marker_drawn g coord_font s c r Hc Hr)) |].
  split; [apply back_minus_front_x | apply back_minus_front_y].
Qed.

Lemma back_marker_offset_witness :
  (0 <= 3 < matrix_size_x grid_1000_700) /\
  (0 <= 0 < matrix_size_y grid_1000_700) /\
  (back_element_x grid_1000_700 3 - front_element_x grid_1000_700 3
   == inject_Z 1)%Q /\
  (back_element_y grid_1000_700 0 - front_element_y grid_1000_700 0
   == inject_Z 0)%Q.
Proof.
  split; [cbn; lia |]. split; [cbn; lia |].
  apply (back_marker_offset grid_1000_700 coord_font_25 sample_pages 3 0);
    cbn; lia.
Defined.

(** C5. On the center column the x component of the back-marker offset is
    exactly 0 (the offset is [(0, r - half_rows)]), on the center row the y
    component is exactly 0 (the offset is [(c - half_columns, 0)]), and at
    the crosshair the front and the back marker have the same corners. *)
Theorem crosshair_offset_zero (g : Grid) (c r : Z) :
  (back_element_x g (matrix_half_size_x g)
   - front_element_x g (matrix_half_size_x g) == 0)%Q /\
  (back_element_y g r - front_element_y g r
   == inject_Z (r - matrix_half_size_y g))%Q /\
  (back_element_y g (matrix_half_size_y g)
   - front_element_y g (matrix_half_size_y g) == 0)%Q /\
  (back_element_x g c - front_element_x g c
   == inject_Z (c - matrix_half_size_x g))%Q /\
  same_point
    (fst (back_shape g (matrix_half_size_x g) (matrix_half_size_y g)))
    (fst (front_shape g (matrix_half_size_x g) (matrix_half_size_y g))) /\
  same_point
    (snd (back_shape g (matrix_half_size_x g) (matrix_half_size_y g)))
    (snd (front_shape g (matrix_half_size_x g) (matrix_half_size_y g))).
Proof.
  assert (Hx : (back_element_x g (matrix_half_size_x g)
                == front_element_x g (matrix_half_size_x g))%Q)
    by (unfold back_element_x; ring).
  assert (Hy : (back_element_y g (matrix_half_size_y g)
                == front_element_y g (matrix_half_size_y g))%Q)
    by (unfold back_element_y; ring).
  split; [rewrite Hx; ring |].
  split; [apply back_minus_front_y |].
  split; [rewrite Hy; ring |].
  split; [apply back_minus_front_x |].
  unfold same_point, back_shape, front_shape; cbn [fst snd].
  rewrite Hx, Hy. repeat split; reflexivity.
Qed.

(** C6. For every grid index [(col, row)] of the grid, the front marker and
    the back marker are drawn with one and the same color, which is the
    accent color (blue) if and only if [col = half_columns] or
    [row = half_rows], and the base color (black) otherwise. *)
Theorem marker_fill (g : Grid) (coord_font : Font) (s : Image * Image)
    (col row : Z) :
  0 <= col < matrix_size_x g ->
  0 <= row < matrix_size_y g ->
  exists color,
    DrawRectangle (front_shape g col row) color
    ∈ drawn (fst (draw_pattern g coord_font s)) /\
    DrawRectangle (back_shape g col row) color
    ∈ drawn (snd (draw_pattern g coord_font s)) /\
    (color = Named "blue"
     <-> col = matrix_half_size_x g \/ row = matrix_half_size_y g) /\
    (color = Named "black"
     <-> ~ (col = matrix_half_size_x g \/ row = matrix_half_size_y g)).
Proof.
  intros Hc Hr. exists (fill g col row).
  split; [exact (front_marker_drawn g coord_font s col row Hc Hr) |].
  split; [exact (proj1 (back_marker_drawn g coord_font s col row Hc Hr)) |].
  unfold fill.
  destruct (Z.eqb_spec col (matrix_half_size_x g)) as [Ec|Nc];
    destruct (Z.eqb_spec row (matrix_half_size_y g)) as [Er|Nr];
    cbn [orb]; split; split; intros H;
    try reflexivity; try discriminate; try tauto.
Qed.

Lemma marker_fill_witness :
  (0 <= 2 < matrix_size_x grid_1000_700) /\
  (0 <= 0 < matrix_size_y grid_1000_700) /\
  exists color,
    DrawRectangle (front_shape grid_1000_700 2 0) color
    ∈ drawn (fst (draw_pattern grid_1000_700 coord_font_25 sample_pages)) /\
    DrawRectangle (back_shape grid_1000_700 2 0) color
    ∈ drawn (snd (draw_pattern grid_1000_700 coord_font_25 sample_pages)) /\
    (color = Named "blue"
     <-> 2 = matrix_half_size_x grid_1000_700
         \/ 0 = matrix_half_size_y grid_1000_700) /\
    (color = Named "black"
     <-> ~ (2 = matrix_half_size_x grid_1000_700
            \/ 0 = matrix_half_size_y grid_1000_700)).
Proof.
  split; [cbn; lia |]. split; [cbn; lia |].
  apply (marker_fill grid_1000_700 coord_font_25 sample_pages 2 0); cbn; lia.
Defined.

(** C10. The back markers form a uniform grid of pitch
    [marker_size + spacing + 1 = 101] px on each axis, against 100 px on the
    front: adjacent back positions differ by 101, the back grid is the front
    grid stretched about the center index, and the divergence between back
    and front grows by exactly 1 px per index step. *)
Theorem back_grid_pitch (g : Grid) (i : Z) :
  test_size + test_distance + 1 = 101 /\
  (back_element_x g (i + 1) - back_element_x g i == 101)%Q /\
  (back_element_y g (i + 1) - back_element_y g i == 101)%Q /\
  (front_element_x g (i + 1) - front_element_x g i == 100)%Q /\
  (front_element_y g (i + 1) - front_element_y g i == 100)%Q /\
  (back_element_x g i - back_element_x g (matrix_half_size_x g)
   == inject_Z (101 * (i - matrix_half_size_x g)))%Q /\
  (front_element_x g i - front_element_x g (matrix_half_size_x g)
   == inject_Z (100 * (i - matrix_half_size_x g)))%Q /\
  (back_element_y g i - back_element_y g (matrix_half_size_y g)
   == inject_Z (101 * (i - matrix_half_size_y g)))%Q /\
  (front_element_y g i - front_element_y g (matrix_half_size_y g)
   == inject_Z (100 * (i - matrix_half_size_y g)))%Q /\
  ((back_element_x g (i + 1) - front_element_x g (i + 1))
   - (back_element_x g i - front_element_x g i) == 1)%Q /\
  ((back_element_y g (i + 1) - front_element_y g (i + 1))
   - (back_element_y g i - front_element_y g i) == 1)%Q.
Proof.
  split; [reflexivity |].
  split; [rewrite back_pitch_x; replace (101 * (i + 1 - i)) with 101 by lia;
          reflexivity |].
  split; [rewrite back_pitch_y; replace (101 * (i + 1 - i)) with 101 by lia;
          reflexivity |].
  split; [rewrite front_pitch_x; replace (100 * (i + 1 - i)) with 100 by lia;
          reflexivity |].
  split; [rewrite front_pitch_y; replace (100 * (i + 1 - i)) with 100 by lia;
          reflexivity |].
  split; [apply back_pitch_x |]. split; [apply front_pitch_x |].
  split; [apply back_pitch_y |]. split; [apply front_pitch_y |].
  rewrite !back_minus_front_x, !back_minus_front_y.
  unfold Qminus. rewrite <- !inject_Z_opp, <- !inject_Z_plus.
  split; apply inject_Z_injective; lia.
Qed.

(** ** Properties of the run *)

(** C3 (as amended). When the marker count of an axis is even and not
    positive, the x axis being examined first, the run stops at that paper
    size with a plain exception whose message carries the count and nothing
    else; the world is left as it was. *)
Theorem even_nonpositive_count_raises (paper_size : string)
    (rest : list string) (w : World) (sz : Z * Z) :
  images w !! Py.path_join asset_directory (paper_size +:+ "_blank.jpg")
  = Some sz ->
  "assets/arial.ttf" ∈ fonts w ->
  let cx := GridPlannerSpec.count_axis (oriented_width sz) 25 75 6 in
  let cy := GridPlannerSpec.count_axis (oriented_height sz) 25 75 6 in
  (Z.even cx = true /\ cx <= 0 ->
   run (paper_size :: rest) w
   = (w, Some (Exception ("matrix_size must be greater than 0; received: "
                          +:+ Py.str cx)))) /\
  (0 < cx -> Z.even cy = true /\ cy <= 0 ->
   run (paper_size :: rest) w
   = (w, Some (Exception ("matrix_size must be greater than 0; received: "
                          +:+ Py.str cy)))).
Proof.
  intros Him Hfont cx cy. split.
  - intros [He Hle]. apply (run_raises paper_size rest w sz _ Him Hfont).
    exact (plan_inl_x (oriented_width sz) (oriented_height sz) He Hle).
  - intros Hx [He Hle]. apply (run_raises paper_size rest w sz _ Him Hfont).
    exact (plan_inl_y (oriented_width sz) (oriented_height sz)
             (or_intror Hx) He Hle).
Qed.

Lemma even_nonpositive_count_raises_witness :
  run ["tabloid"; "letter"] (sample_world "tabloid" 600 600)
  = (sample_world "tabloid" 600 600,
     Some (Exception "matrix_size must be greater than 0; received: 0")) /\
  run ["letter"] (sample_world "letter" 600 1000)
  = (sample_world "letter" 600 1000,
     Some (Exception "matrix_size must be greater than 0; received: 0")).
Proof.
  split.
  - refine (proj1 (even_nonpositive_count_raises "tabloid" ["letter"]
                     (sample_world "tabloid" 600 600) (600, 600) _ _) _).
    + reflexivity.
    + apply (bool_decide_unpack _). vm_compute. exact I.
    + split; [reflexivity | vm_compute; discriminate].
  - refine (proj2 (even_nonpositive_count_raises "letter" []
                     (sample_world "letter" 600 1000) (600, 1000) _ _) _ _).
    + reflexivity.
    + apply (bool_decide_unpack _). vm_compute. exact I.
    + reflexivity.
    + split; [reflexivity | vm_compute; discriminate].
Defined.

(** C3, as stated, fails twice over. The exception names neither the axis
    nor the paper size: a y-axis failure on one paper size and an x-axis
    failure on another raise the very same exception. And a count that is
    odd and negative raises nothing: the run ends without an exception and
    the saved pages carry the two labels and no marker. *)
Lemma matrix_size_error_names_nothing :
  (GridPlannerSpec.count_axis 700 25 75 6 = 1 /\
   GridPlannerSpec.count_axis 600 25 75 6 = 0 /\
   exists e,
     run ["letter"] (sample_world "letter" 700 600)
     = (sample_world "letter" 700 600, Some e) /\
     run ["tabloid"] (sample_world "tabloid" 600 600)
     = (sample_world "tabloid" 600 600, Some e)) /\
  (GridPlannerSpec.count_axis 500 25 75 6 = -1 /\
   exists w',
     run ["letter"] (sample_world "letter" 1000 500) = (w', None) /\
     files w' !! "calibration/letter_calibration.pdf"
     = Some
         {| pages :=
              [label_page (Opened "assets/letter_blank.jpg" (1000, 500))
                 1000 500 "front" font_40;
               Rotated 180 false
                 (label_page (Opened "assets/letter_blank.jpg" (1000, 500))
                    1000 500 "back" font_40)];
            resolution := 300;
            subsampling := 0;
            quality := 100 |}).
Proof.
  split.
  - split; [reflexivity |]. split; [reflexivity |].
    exists (Exception "matrix_size must be greater than 0; received: 0").
    split; vm_compute; reflexivity.
  - split; [reflexivity |].
    destruct (run ["letter"] (sample_world "letter" 1000 500)) as [w' e] eqn:E.
    vm_compute in E. injection E as <- <-.
    eexists. split; [reflexivity |]. vm_compute. reflexivity.
Qed.

(** C7. For every paper size that is processed without an exception (its
    identifier being a file-name stem, not an absolute path), exactly one
    file is written or replaced, at
    [calibration/<papersize>_calibration.pdf]: a document of two pages, the
    front page as rendered and the back page as rendered and then rotated by
    180 degrees, saved with resolution 300, subsampling 0 and quality 100,
    whatever was at that path before. *)
Theorem process_writes_document (paper_size : string) (w w' : World) :
  Py.startswith "/" paper_size = false ->
  process paper_size w = inr w' ->
  let pdf_path := "calibration/" +:+ paper_size +:+ "_calibration.pdf" in
  exists front_image back_image,
    render paper_size w = inr (front_image, back_image) /\
    (exists im print_width print_height font coord_font g,
       (front_image, back_image)
       = draw_pattern g coord_font
           (label_page im print_width print_height "front" font,
            label_page im print_width print_height "back" font)) /\
    files w'
    = <[pdf_path := {| pages := [front_image; Rotated 180 false back_image];
                       resolution := 300;
                       subsampling := 0;
                       quality := 100 |}]> (files w) /\
    files w' !! pdf_path
    = Some {| pages := [front_image; Rotated 180 false back_image];
              resolution := 300;
              subsampling := 0;
              quality := 100 |} /\
    (forall p : string, p <> pdf_path -> files w' !! p = files w !! p) /\
    images w' = images w /\ fonts w' = fonts w.
Proof.
  intros Hstem Hproc pdf_path. unfold process in Hproc.
  destruct (render paper_size w) as [e|[front_image back_image]] eqn:Hr;
    [discriminate |].
  cbn [bind] in Hproc. unfold compose, save in Hproc.
  rewrite (pdf_path_stem paper_size Hstem) in Hproc. fold pdf_path in Hproc.
  destruct (writable w pdf_path); [| discriminate].
  injection Hproc as <-. cbn [hd tl fst snd files images fonts].
  exists front_image, back_image.
  split; [reflexivity |].
  split; [exact (render_pages paper_size w _ Hr) |].
  split; [reflexivity |].
  split; [apply lookup_insert_eq |].
  split; [| split; reflexivity].
  intros p Hp. apply lookup_insert_ne. congruence.
Qed.

Lemma process_writes_document_witness :
  Py.startswith "/" "letter" = false /\
  exists w',
    process "letter" (sample_world "letter" 1000 700) = inr w' /\
    exists front_image back_image,
      render "letter" (sample_world "letter" 1000 700)
      = inr (front_image, back_image) /\
      files w' !! "calibration/letter_calibration.pdf"
      = Some {| pages := [front_image; Rotated 180 false back_image];
                resolution := 300;
                subsampling := 0;
                quality := 100 |}.
Proof.
  split; [reflexivity |].
  destruct (process "letter" (sample_world "letter" 1000 700)) as [e|w'] eqn:E;
    [vm_compute in E; discriminate E |].
  exists w'. split; [reflexivity |].
  destruct (process_writes_document "letter"
              (sample_world "letter" 1000 700) w' eq_refl E)
    as (f & b & Hr & _ & _ & Hl & _).
  exists f, b. split; [exact Hr | exact Hl].
Defined.

(** C8 (evaluation at the failing input). A template of 1000 x 500 px has
    an odd, negative marker count on the y axis. The run raises nothing and
    writes a document for that paper size, whose pages carry the labels and
    no marker. *)
Theorem odd_negative_count_writes_document :
  GridPlannerSpec.count_axis 1000 25 75 6 = 4 /\
  GridPlannerSpec.count_axis 500 25 75 6 = -1 /\
  exists w',
    run ["a4"] (sample_world "a4" 500 1000) = (w', None) /\
    files w' !! "calibration/a4_calibration.pdf"
    = Some
        {| pages :=
             [label_page
                (Rotated 90 true (Opened "assets/a4_blank.jpg" (500, 1000)))
                1000 500 "front" font_40;
              Rotated 180 false
                (label_page
                   (Rotated 90 true (Opened "assets/a4_blank.jpg" (500, 1000)))
                   1000 500 "back" font_40)];
           resolution := 300;
           subsampling := 0;
           quality := 100 |}.
Proof.
  split; [reflexivity |]. split; [reflexivity |].
  destruct (run ["a4"] (sample_world "a4" 500 1000)) as [w' e] eqn:E.
  vm_compute in E. injection E as <- <-.
  eexists. split; [reflexivity |]. vm_compute. reflexivity.
Qed.

(** * Further properties of the script *)

(** ** The planner: when it returns, and where the grid sits *)

Lemma plan_inv (print_width print_height : Z) (g : Grid) :
  plan print_width print_height = inr g ->
  let cx := print_width / 100 - 6 in
  let cy := print_height / 100 - 6 in
  (Z.odd cx = true \/ 0 < cx) /\ (Z.odd cy = true \/ 0 < cy) /\
  matrix_size_x g = cx /\ matrix_half_size_x g = cx / 2 /\
  matrix_size_y g = cy /\ matrix_half_size_y g = cy / 2 /\
  (start_x g == GridPlannerSpec.start print_width 25 75 cx)%Q /\
  (start_y g == GridPlannerSpec.start print_height 25 75 cy)%Q.
Proof.
  intros Hg cx cy.
  assert (Hx : Z.odd cx = true \/ 0 < cx).
  { destruct (Z.odd cx) eqn:Ox; [left; reflexivity |].
    destruct (Z.leb_spec cx 0) as [Hle|Hgt]; [| right; exact Hgt].
    rewrite (plan_inl_x print_width print_height) in Hg;
      [discriminate | | exact Hle].
    rewrite <- Z.negb_odd. fold cx. rewrite Ox. reflexivity. }
  assert (Hy : Z.odd cy = true \/ 0 < cy).
  { destruct (Z.odd cy) eqn:Oy; [left; reflexivity |].
    destruct (Z.leb_spec cy 0) as [Hle|Hgt]; [| right; exact Hgt].
    rewrite (plan_inl_y print_width print_height Hx) in Hg;
      [discriminate | | exact Hle].
    rewrite <- Z.negb_odd. fold cy. rewrite Oy. reflexivity. }
  destruct (plan_inr print_width print_height Hx Hy) as (g' & Hg' & Hrest).
  rewrite Hg in Hg'. injection Hg' as <-.
  split; [exact Hx |]. split; [exact Hy |]. exact Hrest.
Qed.

Ltac q_consts :=
  repeat match goal with
  | |- context [inject_Z (Zpos ?p)] =>
      change (inject_Z (Zpos p)) with (Zpos p # 1)%Q
  | |- context [inject_Z (Zneg ?p)] =>
      change (inject_Z (Zneg p)) with (Zneg p # 1)%Q
  | |- context [inject_Z Z0] => change (inject_Z Z0) with (0 # 1)%Q
  end.

Ltac q_consts_in H :=
  repeat match type of H with
  | context [inject_Z (Zpos ?p)] =>
      change (inject_Z (Zpos p)) with (Zpos p # 1)%Q in H
  | context [inject_Z (Zneg ?p)] =>
      change (inject_Z (Zneg p)) with (Zneg p # 1)%Q in H
  | context [inject_Z Z0] => change (inject_Z Z0) with (0 # 1)%Q in H
  end.

Ltac push_inject_in H :=
  repeat first [rewrite inject_Z_plus in H | rewrite inject_Z_mult in H];
  q_consts_in H.

Lemma odd_half (n : Z) : Z.odd n = true -> n = 2 * (n / 2) + 1.
Proof.
  intros Ho. pose proof (Z.div_mod n 2 ltac:(lia)) as H.
  rewrite Zmod_odd, Ho in H. exact H.
Qed.

Lemma even_half (n : Z) : Z.odd n = false -> n = 2 * (n / 2).
Proof.
  intros Ho. pose proof (Z.div_mod n 2 ltac:(lia)) as H.
  rewrite Zmod_odd, Ho in H. lia.
Qed.

(** On either parity the start coordinate is the page center minus half the
    span of the grid, the span being [100 * count - 75]. *)
Lemma start_centered (dim n : Z) :
  (2 * GridPlannerSpec.start dim 25 75 n + inject_Z (100 * n - 75)
   == inject_Z (2 * (dim / 2)))%Q.
Proof.
  unfold GridPlannerSpec.start, GridPlannerSpec.start_odd,
    GridPlannerSpec.start_even, GridPlannerSpec.half,
    GridPlannerSpec.page_center.
  destruct (Z.odd n) eqn:Ho.
  - rewrite (odd_half n Ho) at 3.
    replace (100 * (2 * (n / 2) + 1) - 75) with (200 * (n / 2) + 25) by lia.
    rewrite ?inject_Z_plus, ?inject_Z_mult. q_consts. ring.
  - rewrite (even_half n Ho) at 3.
    replace (100 * (2 * (n / 2)) - 75) with (200 * (n / 2) + -75) by lia.
    rewrite ?inject_Z_plus, ?inject_Z_mult. q_consts. ring.
Qed.

Lemma front_element_x_start (g : Grid) (c : Z) :
  (front_element_x g c == start_x g + inject_Z (100 * c))%Q.
Proof.
  unfold front_element_x, offset_x, test_distance, test_size.
  replace (c * (75 + 25)) with (100 * c) by lia. reflexivity.
Qed.

Lemma front_element_y_start (g : Grid) (r : Z) :
  (front_element_y g r == start_y g + inject_Z (100 * r))%Q.
Proof.
  unfold front_element_y, offset_y, test_distance, test_size.
  replace (r * (75 + 25)) with (100 * r) by lia. reflexivity.
Qed.

(** The gap right of the last marker minus the gap left of the first one,
    for a start coordinate that is centered. *)
Lemma gap_difference (dim n : Z) (start : Q) :
  (start == GridPlannerSpec.start dim 25 75 n)%Q ->
  (inject_Z dim - (start + inject_Z (100 * (n - 1)) + inject_Z 25) - start
   == inject_Z (dim mod 2))%Q.
Proof.
  intros Hs. pose proof (start_centered dim n) as Hc. rewrite <- Hs in Hc.
  assert (Hd : (inject_Z dim
                == inject_Z (2 * (dim / 2)) + inject_Z (dim mod 2))%Q).
  { rewrite <- inject_Z_plus. rewrite <- Z.div_mod by lia. reflexivity. }
  rewrite Hd, <- Hc.
  replace (100 * (n - 1)) with (100 * n - 75 + -25) by lia.
  rewrite (inject_Z_plus (100 * n - 75)). q_consts. ring.
Qed.

(** The markers of a positive count keep 337.5 px clear of both page
    edges. *)
Lemma axis_margins (dim n i : Z) (start : Q) :
  (start == GridPlannerSpec.start dim 25 75 n)%Q ->
  n = dim / 100 - 6 ->
  0 <= i < n ->
  ((675 # 2) <= start + inject_Z (100 * i))%Q /\
  (start + inject_Z (100 * i) + inject_Z 25 <= inject_Z dim - (675 # 2))%Q.
Proof.
  intros Hs Hn Hi. pose proof (start_centered dim n) as Hc.
  rewrite <- Hs in Hc.
  assert (H1 : 100 * (n + 6) <= dim)
    by (pose proof (Z.mul_div_le dim 100 ltac:(lia)); lia).
  assert (H2 : 50 * (n + 6) <= dim / 2)
    by (apply Z.div_le_lower_bound; lia).
  assert (H3 : 2 * (dim / 2) <= dim)
    by (apply Z.mul_div_le; lia).
  assert (H4 : 100 * (n + 6) + 2 * (dim / 2) <= 2 * dim) by lia.
  rewrite Zle_Qle in H2, H4. destruct Hi as [Hi0 Hi1].
  assert (Hi2 : 100 * i + 100 <= 100 * n) by lia.
  assert (Hi3 : 0 <= 100 * i) by lia.
  rewrite Zle_Qle in Hi2, Hi3.
  replace (100 * n - 75) with (100 * n + -75) in Hc by lia.
  push_inject_in H2; push_inject_in H4; push_inject_in Hi2;
    push_inject_in Hi3; push_inject_in Hc.
  rewrite ?inject_Z_mult. q_consts.
  split; lra.
Qed.

(** X1. Whenever the planner returns a grid, the grid is centered on the
    page up to the odd pixel: on each axis the gap between the last marker
    and the far page edge exceeds the gap between the near page edge and the
    first marker by exactly [dimension mod 2]. *)
Theorem grid_centered (print_width print_height : Z) (g : Grid) :
  plan print_width print_height = inr g ->
  (inject_Z print_width
   - (front_element_x g (matrix_size_x g - 1) + inject_Z test_size)
   - front_element_x g 0
   == inject_Z (print_width mod 2))%Q /\
  (inject_Z print_height
   - (front_element_y g (matrix_size_y g - 1) + inject_Z test_size)
   - front_element_y g 0
   == inject_Z (print_height mod 2))%Q.
Proof.
  intros Hg.
  destruct (plan_inv _ _ _ Hg) as (_ & _ & Hnx & _ & Hny & _ & Hsx & Hsy).
  rewrite !front_element_x_start, !front_element_y_start, Hnx, Hny.
  change (100 * 0) with 0. change (inject_Z 0) with 0%Q.
  rewrite !Qplus_0_r. change test_size with 25.
  split; apply gap_difference; assumption.
Qed.

Lemma grid_centered_witness :
  plan 1001 700 = inr grid_1000_700 /\
  (inject_Z 1001
   - (front_element_x grid_1000_700 (matrix_size_x grid_1000_700 - 1)
      + inject_Z test_size)
   - front_element_x grid_1000_700 0
   == inject_Z (1001 mod 2))%Q.
Proof.
  split; [reflexivity |].
  apply (grid_centered 1001 700 grid_1000_700). reflexivity.
Defined.

(** X2. Whenever the planner returns a grid, every marker of the front grid
    lies on the page with at least 337.5 px between it and each page edge,
    on both axes. *)
Theorem front_markers_inside_margins (print_width print_height : Z) (g : Grid)
    (c r : Z) :
  plan print_width print_height = inr g ->
  0 <= c < matrix_size_x g ->
  0 <= r < matrix_size_y g ->
  ((675 # 2) <= front_element_x g c)%Q /\
  (front_element_x g c + inject_Z test_size
   <= inject_Z print_width - (675 # 2))%Q /\
  ((675 # 2) <= front_element_y g r)%Q /\
  (front_element_y g r + inject_Z test_size
   <= inject_Z print_height - (675 # 2))%Q.
Proof.
  intros Hg Hc Hr.
  destruct (plan_inv _ _ _ Hg) as (_ & _ & Hnx & _ & Hny & _ & Hsx & Hsy).
  rewrite front_element_x_start, front_element_y_start.
  change test_size with 25.
  destruct (axis_margins print_width (matrix_size_x g) c (start_x g))
    as [Hx1 Hx2]; [rewrite Hnx; exact Hsx | exact Hnx | exact Hc |].
  destruct (axis_margins print_height (matrix_size_y g) r (start_y g))
    as [Hy1 Hy2]; [rewrite Hny; exact Hsy | exact Hny | exact Hr |].
  auto.
Qed.

Lemma front_markers_inside_margins_witness :
  ((675 # 2) <= front_element_x grid_1000_700 3)%Q /\
  (front_element_x grid_1000_700 3 + inject_Z test_size
   <= inject_Z 1000 - (675 # 2))%Q /\
  ((675 # 2) <= front_element_y grid_1000_700 0)%Q /\
  (front_element_y grid_1000_700 0 + inject_Z test_size
   <= inject_Z 700 - (675 # 2))%Q.
Proof.
  apply (front_markers_inside_margins 1000 700 grid_1000_700 3 0);
    [reflexivity | cbn; lia | cbn; lia].
Defined.

Lemma plan_raises_only_matrix_size_aux (print_width print_height : Z) (e : Exn) :
  plan print_width print_height = inl e ->
  let cx := print_width / 100 - 6 in
  let cy := print_height / 100 - 6 in
  (Z.even cx = true /\ cx <= 0 /\ e = matrix_size_error cx) \/
  ((Z.odd cx = true \/ 0 < cx) /\
   Z.even cy = true /\ cy <= 0 /\ e = matrix_size_error cy).
Proof.
  intros He cx cy.
  destruct (Z.odd cx) eqn:Ox.
  - right. split; [left; reflexivity |].
    destruct (Z.odd cy) eqn:Oy.
    + destruct (plan_inr print_width print_height) as (g & Hg & _);
        [left; exact Ox | left; exact Oy |]. congruence.
    + destruct (Z.leb_spec cy 0) as [Hle|Hgt].
      * assert (Hev : Z.even cy = true) by (rewrite <- Z.negb_odd, Oy; reflexivity).
        split; [exact Hev |]. split; [exact Hle |].
        rewrite (plan_inl_y print_width print_height (or_introl Ox) Hev Hle)
          in He. injection He as <-. reflexivity.
      * destruct (plan_inr print_width print_height) as (g & Hg & _);
          [left; exact Ox | right; exact Hgt |]. congruence.
  - assert (Hevx : Z.even cx = true) by (rewrite <- Z.negb_odd, Ox; reflexivity).
    destruct (Z.leb_spec cx 0) as [Hlex|Hgtx].
    + left. split; [exact Hevx |]. split; [exact Hlex |].
      rewrite (plan_inl_x print_width print_height Hevx Hlex) in He. injection He as <-. reflexivity.
    + right. split; [right; exact Hgtx |].
      destruct (Z.odd cy) eqn:Oy.
      * destruct (plan_inr print_width print_height) as (g & Hg & _);
          [right; exact Hgtx | left; exact Oy |]. congruence.
      * destruct (Z.leb_spec cy 0) as [Hle|Hgt].
        -- assert (Hev : Z.even cy = true)
             by (rewrite <- Z.negb_odd, Oy; reflexivity).
           split; [exact Hev |]. split; [exact Hle |].
           rewrite (plan_inl_y print_width print_height (or_intror Hgtx) Hev Hle)
             in He. injection He as <-. reflexivity.
        -- destruct (plan_inr print_width print_height) as (g & Hg & _);
             [right; exact Hgtx | right; exact Hgt |]. congruence.
Qed.

(** X3. The only exception the planner raises is the matrix-size exception,
    and it raises it exactly for an axis whose count is even and not
    positive: for the x axis if its count is such, else for the y axis. *)
Theorem plan_raises_only_matrix_size (print_width print_height : Z) (e : Exn) :
  plan print_width print_height = inl e ->
  let cx := print_width / 100 - 6 in
  let cy := print_height / 100 - 6 in
  (Z.even cx = true /\ cx <= 0 /\ e = matrix_size_error cx) \/
  ((Z.odd cx = true \/ 0 < cx) /\
   Z.even cy = true /\ cy <= 0 /\ e = matrix_size_error cy).
Proof. exact (plan_raises_only_matrix_size_aux print_width print_height e). Qed.

Lemma plan_raises_only_matrix_size_witness :
  plan 1000 400 = inl (matrix_size_error (-2)) /\
  ((Z.even 4 = true /\ 4 <= 0 /\
    matrix_size_error (-2) = matrix_size_error 4) \/
   ((Z.odd 4 = true \/ 0 < 4) /\
    Z.even (-2) = true /\ -2 <= 0 /\
    matrix_size_error (-2) = matrix_size_error (-2))).
Proof.
  split; [reflexivity |].
  exact (plan_raises_only_matrix_size 1000 400 (matrix_size_error (-2))
           eq_refl).
Defined.

(** ** The marker loop: how much is drawn, and nothing else *)

Lemma length_range (n : Z) : length (Py.range n) = Z.to_nat n.
Proof. unfold Py.range. rewrite length_fmap, length_seq. reflexivity. Qed.

Lemma length_bind_uniform {A B : Type} (f : A -> list B) (k : nat)
    (l : list A) :
  (forall x, length (f x) = k) -> length (l ≫= f) = (length l * k)%nat.
Proof.
  intros Hf. induction l as [|x l IH]; [reflexivity |].
  rewrite bind_cons, length_app, Hf, IH. cbn [length]. lia.
Qed.

(** X4. The loop adds one square per grid index to the front page, and one
    square and one label per grid index to the back page: columns x rows
    squares on each page, and none at all when a count is not positive. *)
Theorem marker_counts (g : Grid) (coord_font : Font) (s : Image * Image) :
  length (drawn (fst (draw_pattern g coord_font s)))
  = (length (drawn (fst s))
     + Z.to_nat (matrix_size_x g) * Z.to_nat (matrix_size_y g))%nat /\
  length (drawn (snd (draw_pattern g coord_font s)))
  = (length (drawn (snd s))
     + 2 * (Z.to_nat (matrix_size_x g) * Z.to_nat (matrix_size_y g)))%nat.
Proof.
  rewrite draw_pattern_front, draw_pattern_back, !length_app.
  rewrite (length_bind_uniform _ (Z.to_nat (matrix_size_y g) * 1)).
  2:{ intros x. rewrite (length_bind_uniform _ 1%nat), length_range;
        [reflexivity | reflexivity]. }
  rewrite (length_bind_uniform _ (Z.to_nat (matrix_size_y g) * 2)).
  2:{ intros x. rewrite (length_bind_uniform _ 2%nat), length_range;
        [reflexivity | reflexivity]. }
  rewrite !length_range. split; lia.
Qed.

(** X5. The loop draws nothing but the markers of the grid: whatever is on
    the front page after the loop was there before or is the square of a
    grid index in range, and whatever is on the back page was there before
    or is the square or the label of a grid index in range. *)
Theorem loop_draws_only_markers (g : Grid) (coord_font : Font)
    (s : Image * Image) (op : DrawOp) :
  (op ∈ drawn (fst (draw_pattern g coord_font s)) ->
   op ∈ drawn (fst s) \/
   exists c r,
     0 <= c < matrix_size_x g /\ 0 <= r < matrix_size_y g /\
     op = DrawRectangle (front_shape g c r) (fill g c r)) /\
  (op ∈ drawn (snd (draw_pattern g coord_font s)) ->
   op ∈ drawn (snd s) \/
   exists c r,
     0 <= c < matrix_size_x g /\ 0 <= r < matrix_size_y g /\
     (op = DrawRectangle (back_shape g c r) (fill g c r) \/
      op = back_label g coord_font c r)).
Proof.
  split.
  - rewrite draw_pattern_front, elem_of_app. intros [H|H]; [left; exact H |].
    right. apply list_elem_of_bind in H as (c & H & Hc).
    apply list_elem_of_bind in H as (r & H & Hr).
    apply elem_of_range in Hc, Hr.
    unfold front_ops in H. apply list_elem_of_singleton in H. eauto.
  - rewrite draw_pattern_back, elem_of_app. intros [H|H]; [left; exact H |].
    right. apply list_elem_of_bind in H as (c & H & Hc).
    apply list_elem_of_bind in H as (r & H & Hr).
    apply elem_of_range in Hc, Hr.
    unfold back_ops in H. rewrite !elem_of_cons in H.
    destruct H as [H|[H|H]]; [eauto 6 | eauto 6 |].
    apply elem_of_nil in H. contradiction.
Qed.

Lemma loop_draws_only_markers_witness :
  exists c r,
    0 <= c < 4 /\ 0 <= r < 1 /\
    DrawRectangle (front_shape grid_1000_700 2 0) (Named "blue")
    = DrawRectangle (front_shape grid_1000_700 c r) (fill grid_1000_700 c r).
Proof.
  destruct (proj1 (loop_draws_only_markers grid_1000_700 coord_font_25
                     sample_pages
                     (DrawRectangle (front_shape grid_1000_700 2 0)
                        (Named "blue"))))
    as [H|H].
  - apply (front_marker_drawn grid_1000_700 coord_font_25 sample_pages 2 0);
      cbn; lia.
  - apply elem_of_nil in H. contradiction.
  - exact H.
Defined.

(** X6. Under every back marker of the grid the loop writes, in red and in
    the 25 pt font, the label [(c - half_columns, r - half_rows)], anchored
    at the middle 12 px right of the square's corner and 42 px below it; the
    two numbers of the label are the displacement of the back marker from
    the front marker, and the crosshair marker is labelled [(0, 0)]. *)
Theorem back_marker_label (g : Grid) (coord_font : Font) (s : Image * Image)
    (c r : Z) :
  0 <= c < matrix_size_x g ->
  0 <= r < matrix_size_y g ->
  DrawText
    ((back_element_x g c + inject_Z 12)%Q,
     (back_element_y g r + inject_Z 12 + 30)%Q)
    ("(" +:+ Py.str (c - matrix_half_size_x g) +:+ ", "
         +:+ Py.str (r - matrix_half_size_y g) +:+ ")")
    (Named "red") "mm" coord_font
  ∈ drawn (snd (draw_pattern g coord_font s)) /\
  (inject_Z (c - matrix_half_size_x g)
   == back_element_x g c - front_element_x g c)%Q /\
  (inject_Z (r - matrix_half_size_y g)
   == back_element_y g r - front_element_y g r)%Q /\
  (c = matrix_half_size_x g -> r = matrix_half_size_y g ->
   "(" +:+ Py.str (c - matrix_half_size_x g) +:+ ", "
       +:+ Py.str (r - matrix_half_size_y g) +:+ ")" = "(0, 0)").
Proof.
  intros Hc Hr.
  split; [exact (proj2 (back_marker_drawn g coord_font s c r Hc Hr)) |].
  split; [symmetry; apply back_minus_front_x |].
  split; [symmetry; apply back_minus_front_y |].
  intros -> ->. rewrite !Z.sub_diag. reflexivity.
Qed.

Lemma back_marker_label_witness :
  DrawText
    ((back_element_x grid_1000_700 3 + inject_Z 12)%Q,
     (back_element_y grid_1000_700 0 + inject_Z 12 + 30)%Q)
    "(1, 0)" (Named "red") "mm" coord_font_25
  ∈ drawn (snd (draw_pattern grid_1000_700 coord_font_25 sample_pages)).
Proof.
  apply (back_marker_label grid_1000_700 coord_font_25 sample_pages 3 0);
    cbn; lia.
Defined.

(** ** One paper size: what it needs and what it leaves *)

Lemma render_eq (paper_size : string) (w : World) (sz : Z * Z) :
  images w !! base_path paper_size = Some sz ->
  "assets/arial.ttf" ∈ fonts w ->
  render paper_size w
  = bind (plan (oriented_width sz) (oriented_height sz))
      (fun g =>
         inr (draw_pattern g coord_font_25
                (labelled_pages (base_path paper_size) sz))).
Proof.
  intros Him Hfont. unfold base_path in Him.
  unfold render, image_open. rewrite Him. cbn [bind].
  change (Py.path_join asset_directory "arial.ttf") with "assets/arial.ttf".
  unfold truetype. destruct (decide _) as [_|Hno]; [| contradiction].
  cbn [bind].
  destruct sz as [w0 h0].
  unfold labelled_pages, oriented_image, height, width, oriented_width,
    oriented_height, base_path.
  cbn [size fst snd].
  destruct (Z.gtb_spec h0 w0) as [Hgt|Hle].
  - cbn [size fst snd andb]. change (90 mod 180 =? 90) with true.
    cbn [andb fst snd].
    rewrite (Z.max_r w0 h0), (Z.min_l w0 h0) by lia. reflexivity.
  - cbn [size fst snd].
    rewrite (Z.max_l w0 h0), (Z.min_r w0 h0) by lia. reflexivity.
Qed.

Lemma render_inv (paper_size : string) (w : World) (s : Image * Image) :
  render paper_size w = inr s ->
  exists sz g,
    images w !! base_path paper_size = Some sz /\
    "assets/arial.ttf" ∈ fonts w /\
    plan (oriented_width sz) (oriented_height sz) = inr g /\
    s = draw_pattern g coord_font_25
          (labelled_pages (base_path paper_size) sz).
Proof.
  intros H.
  destruct (images w !! base_path paper_size) as [sz|] eqn:Him.
  2:{ unfold render, image_open in H. unfold base_path in Him.
      rewrite Him in H. discriminate. }
  destruct (decide ("assets/arial.ttf" ∈ fonts w)) as [Hfont|Hno].
  2:{ unfold render, image_open in H. unfold base_path in Him.
      rewrite Him in H. cbn [bind] in H.
      change (Py.path_join asset_directory "arial.ttf")
        with "assets/arial.ttf" in H.
      unfold truetype in H.
      destruct (decide ("assets/arial.ttf" ∈ fonts w)); [contradiction |].
      discriminate. }
  rewrite (render_eq paper_size w sz Him Hfont) in H.
  destruct (plan _ _) as [e|g] eqn:Hp; [discriminate |].
  cbn [bind] in H. injection H as <-. eauto 10.
Qed.

Lemma size_draw_column (g : Grid) (cf : Font) (x : Z) (ys : list Z)
    (s : Image * Image) :
  let s' := fold_left (fun s y => draw_marker g cf x y s) ys s in
  size (fst s') = size (fst s) /\ size (snd s') = size (snd s).
Proof.
  revert s. induction ys as [|y ys IH]; intros s; cbn [fold_left].
  - split; reflexivity.
  - destruct (IH (draw_marker g cf x y s)) as [Hf Hb].
    cbn zeta in *. rewrite Hf, Hb. split; reflexivity.
Qed.

Lemma size_draw_pattern (g : Grid) (cf : Font) (s : Image * Image) :
  size (fst (draw_pattern g cf s)) = size (fst s) /\
  size (snd (draw_pattern g cf s)) = size (snd s).
Proof.
  unfold draw_pattern. generalize (Py.range (matrix_size_x g)) as xs.
  intros xs. revert s. induction xs as [|x xs IH]; intros s; cbn [fold_left].
  - split; reflexivity.
  - destruct (IH (fold_left (fun s y => draw_marker g cf x y s)
                    (Py.range (matrix_size_y g)) s)) as [Hf Hb].
    destruct (size_draw_column g cf x (Py.range (matrix_size_y g)) s)
      as [Hf' Hb'].
    cbn zeta in *. rewrite Hf, Hb, Hf', Hb'. split; reflexivity.
Qed.

Lemma size_oriented_image (path : string) (sz : Z * Z) :
  size (oriented_image path sz) = (oriented_width sz, oriented_height sz).
Proof.
  destruct sz as [w0 h0]. unfold oriented_image, oriented_width,
    oriented_height. cbn [fst snd].
  destruct (Z.gtb_spec h0 w0) as [Hgt|Hle]; cbn [size fst snd].
  - change (90 mod 180 =? 90) with true. cbn [andb fst snd].
    rewrite (Z.max_r w0 h0), (Z.min_l w0 h0) by lia. reflexivity.
  - rewrite (Z.max_l w0 h0), (Z.min_r w0 h0) by lia. reflexivity.
Qed.

(** X7. Both pages come out in landscape and in one size: whenever the two
    pages of a paper size are rendered, the front page, the back page and
    the back page turned by 180 degrees all have the template's longer side
    as width and its shorter side as height. *)
Theorem pages_landscape (paper_size : string) (w : World)
    (front_image back_image : Image) :
  render paper_size w = inr (front_image, back_image) ->
  exists sz,
    images w !! base_path paper_size = Some sz /\
    size front_image = (Z.max (fst sz) (snd sz), Z.min (fst sz) (snd sz)) /\
    size back_image = (Z.max (fst sz) (snd sz), Z.min (fst sz) (snd sz)) /\
    size (Rotated 180 false back_image) = size front_image /\
    height front_image <= width front_image.
Proof.
  intros H. destruct (render_inv _ _ _ H) as (sz & g & Him & _ & _ & Hs).
  exists sz. split; [exact Him |].
  destruct (size_draw_pattern g coord_font_25
              (labelled_pages (base_path paper_size) sz)) as [Hf Hb].
  rewrite <- Hs in Hf, Hb. cbn [fst snd] in Hf, Hb.
  unfold labelled_pages, label_page in Hf, Hb. cbn [fst snd size] in Hf, Hb.
  rewrite size_oriented_image in Hf, Hb.
  unfold oriented_width, oriented_height in Hf, Hb.
  split; [exact Hf |]. split; [exact Hb |].
  split; [cbn [size andb]; congruence |].
  unfold height, width. rewrite Hf. cbn [fst snd]. lia.
Qed.

Lemma pages_landscape_witness :
  exists front_image back_image,
    render "letter" (sample_world "letter" 2550 3300)
    = inr (front_image, back_image) /\
    size front_image = (3300, 2550) /\
    size (Rotated 180 false back_image) = size front_image.
Proof.
  destruct (render "letter" (sample_world "letter" 2550 3300))
    as [e|[f b]] eqn:E; [vm_compute in E; discriminate E |].
  exists f, b. split; [reflexivity |].
  destruct (pages_landscape "letter" (sample_world "letter" 2550 3300) f b E)
    as (sz & Him & Hf & _ & Hr & _).
  vm_compute in Him. injection Him as <-.
  split; [exact Hf | exact Hr].
Defined.

Lemma process_inv (paper_size : string) (w w' : World) :
  process paper_size w = inr w' ->
  exists s,
    render paper_size w = inr s /\
    writable w (pdf_path paper_size) = true /\
    images w' = images w /\ fonts w' = fonts w /\
    writable w' = writable w /\
    files w'
    = <[pdf_path paper_size :=
          {| pages := [fst s; Rotated 180 false (snd s)];
             resolution := 300;
             subsampling := 0;
             quality := 100 |}]> (files w).
Proof.
  unfold process. intros H.
  destruct (render paper_size w) as [e|s]; [discriminate |].
  cbn [bind] in H. unfold compose, save in H. fold (pdf_path paper_size) in H.
  destruct (writable w (pdf_path paper_size)) eqn:Hw; [| discriminate].
  injection H as <-. exists s. cbn. auto 10.
Qed.





(** ** The whole run *)

(** X10. Running over a list of paper sizes that is the concatenation of
    two lists is running over the first and, if that raised nothing,
    continuing over the second from the world it left; if the first part
    raised, the run ends there with what had been written. *)
Theorem run_app (ps1 ps2 : list string) (w : World) :
  run (ps1 ++ ps2) w
  = match run ps1 w with
    | (w', None) => run ps2 w'
    | (w', Some e) => (w', Some e)
    end.
Proof.
  revert w. induction ps1 as [|p ps1 IH]; intros w; cbn [app run].
  - reflexivity.
  - destruct (process p w) as [e|w']; [reflexivity | apply IH].
Qed.

Lemma run_frame_aux (ps : list string) (w w' : World) (e : option Exn) :
  run ps w = (w', e) ->
  images w' = images w /\ fonts w' = fonts w /\ writable w' = writable w /\
  (forall p,
     files w' !! p = files w !! p \/
     exists q, q ∈ ps /\ p = pdf_path q /\ is_Some (files w' !! p)) /\
  (forall p, is_Some (files w !! p) -> is_Some (files w' !! p)).
Proof.
  revert w. induction ps as [|q ps IH]; intros w H; cbn [run] in H.
  - injection H as <- <-. auto 10.
  - destruct (process q w) as [ex|w1] eqn:Hq.
    + injection H as <- <-. auto 10.
    + destruct (process_inv _ _ _ Hq) as (s & _ & _ & Hi & Hf & Hw & Hfiles).
      destruct (IH _ H) as (Hi' & Hf' & Hw' & Hch & Hkeep).
      split; [congruence |]. split; [congruence |]. split; [congruence |].
      assert (Hkeep1 : forall p, is_Some (files w !! p) ->
                                 is_Some (files w1 !! p)).
      { intros p Hp. rewrite Hfiles.
        destruct (decide (pdf_path q = p)) as [<-|Hne].
        - rewrite lookup_insert_eq. eauto.
        - rewrite lookup_insert_ne by exact Hne. exact Hp. }
      split.
      * intros p. destruct (Hch p) as [Heq|(q' & Hin & -> & Hs)].
        -- destruct (decide (pdf_path q = p)) as [<-|Hne].
           ++ right. exists q. split; [apply elem_of_cons; auto |].
              split; [reflexivity |]. apply Hkeep. rewrite Hfiles.
              rewrite lookup_insert_eq. eauto.
           ++ left. rewrite Heq, Hfiles. apply lookup_insert_ne. exact Hne.
        -- right. exists q'. split; [apply elem_of_cons; auto |]. auto.
      * intros p Hp. apply Hkeep, Hkeep1, Hp.
Qed.

(** X11. Whatever the run does, it leaves the templates and the fonts as
    they were, it changes no file other than the calibration documents of
    the paper sizes it was given, and it removes no file. *)
Theorem run_frame (ps : list string) (w : World) :
  images (fst (run ps w)) = images w /\
  fonts (fst (run ps w)) = fonts w /\
  (forall p,
     files (fst (run ps w)) !! p = files w !! p \/
     exists q, q ∈ ps /\ p = pdf_path q) /\
  (forall p, is_Some (files w !! p) -> is_Some (files (fst (run ps w)) !! p)).
Proof.
  destruct (run ps w) as [w' e] eqn:H. cbn [fst].
  destruct (run_frame_aux _ _ _ _ H) as (Hi & Hf & _ & Hch & Hkeep).
  split; [exact Hi |]. split; [exact Hf |]. split; [| exact Hkeep].
  intros p. destruct (Hch p) as [Heq|(q & Hin & Hp & _)]; eauto.
Qed.




(** ** Paths and messages *)

Lemma string_length_app (a b : string) :
  String.length (a +:+ b) = (String.length a + String.length b)%nat.
Proof.
  induction a as [|c a IH]; [reflexivity |].
  change (String.length (String c a +:+ b))
    with (S (String.length (a +:+ b))).
  rewrite IH. reflexivity.
Qed.

Lemma string_app_inv_r (a b t : string) : a +:+ t = b +:+ t -> a = b.
Proof.
  revert b. induction a as [|c a IH]; intros [|d b] H.
  - reflexivity.
  - apply (f_equal String.length) in H.
    rewrite (string_length_app (String d b)) in H.
    change (String.length ("" +:+ t)) with (String.length t) in H.
    change (String.length (String d b)) with (S (String.length b)) in H. lia.
  - apply (f_equal String.length) in H.
    rewrite (string_length_app (String c a)) in H.
    change (String.length ("" +:+ t)) with (String.length t) in H.
    change (String.length (String c a)) with (S (String.length a)) in H. lia.
  - change (String c (a +:+ t) = String d (b +:+ t)) in H.
    injection H as -> H. f_equal. apply IH, H.
Qed.

Lemma pdf_path_inj (p q : string) :
  Py.startswith "/" p = false ->
  Py.startswith "/" q = false ->
  pdf_path p = pdf_path q -> p = q.
Proof.
  intros Hp Hq H. unfold pdf_path in H.
  rewrite (pdf_path_stem p Hp), (pdf_path_stem q Hq) in H.
  apply (inj (String.app "calibration/")) in H.
  apply string_app_inv_r in H. exact H.
Qed.

(** X13. Two different paper sizes (file-name stems) never share a
    document: processing one of them leaves whatever is stored at the other's
    output path untouched. *)
Theorem process_keeps_other_documents (p q : string) (w w' : World) :
  Py.startswith "/" p = false ->
  Py.startswith "/" q = false ->
  p <> q ->
  process q w = inr w' ->
  pdf_path p <> pdf_path q /\
  files w' !! pdf_path p = files w !! pdf_path p.
Proof.
  intros Hp Hq Hne Hproc.
  assert (Hpath : pdf_path q <> pdf_path p).
  { intros H. apply Hne. symmetry. exact (pdf_path_inj q p Hq Hp H). }
  split; [congruence |].
  destruct (process_inv _ _ _ Hproc) as (s & _ & _ & _ & _ & _ & Hfiles).
  rewrite Hfiles. apply lookup_insert_ne. exact Hpath.
Qed.

Lemma process_keeps_other_documents_witness :
  exists w',
    process "a4" (sample_world "a4" 1000 700) = inr w' /\
    pdf_path "letter" <> pdf_path "a4" /\
    files w' !! pdf_path "letter"
    = files (sample_world "a4" 1000 700) !! pdf_path "letter".
Proof.
  destruct (process "a4" (sample_world "a4" 1000 700)) as [e|w'] eqn:E;
    [vm_compute in E; discriminate E |].
  exists w'. split; [reflexivity |].
  apply (process_keeps_other_documents "letter" "a4"
           (sample_world "a4" 1000 700) w');
    [reflexivity | reflexivity | discriminate | exact E].
Defined.

(** X14. The message of the matrix-size exception determines the count it
    reports: two such exceptions are equal only for equal counts. *)
Theorem matrix_size_error_inj (n m : Z) :
  matrix_size_error n = matrix_size_error m -> n = m.
Proof.
  unfold matrix_size_error, Py.str. intros H. injection H as H.
  change (pretty n = pretty m) in H.
  exact (inj pretty _ _ H).
Qed.

Lemma matrix_size_error_inj_witness : (-2) = (-2).
Proof. apply (matrix_size_error_inj (-2) (-2)). reflexivity. Defined.

(** X15. Markers never overlap: between the squares of two different
    indexes of an axis there are at least 75 px on the front page and at
    least 76 px on the back page. *)
Theorem markers_disjoint (g : Grid) (i j : Z) :
  i < j ->
  (front_element_x g i + inject_Z test_size + 75 <= front_element_x g j)%Q /\
  (front_element_y g i + inject_Z test_size + 75 <= front_element_y g j)%Q /\
  (back_element_x g i + inject_Z test_size + 76 <= back_element_x g j)%Q /\
  (back_element_y g i + inject_Z test_size + 76 <= back_element_y g j)%Q.
Proof.
  intros Hij.
  pose proof (front_pitch_x g j i) as Hfx.
  pose proof (front_pitch_y g j i) as Hfy.
  pose proof (back_pitch_x g j i) as Hbx.
  pose proof (back_pitch_y g j i) as Hby.
  assert (H100 : 100 <= 100 * (j - i)) by lia.
  assert (H101 : 101 <= 101 * (j - i)) by lia.
  rewrite Zle_Qle in H100, H101.
  change test_size with 25. q_consts. q_consts_in H100. q_consts_in H101.
  repeat split; lra.
Qed.

Lemma markers_disjoint_witness :
  (front_element_x grid_1000_700 0 + inject_Z test_size + 75
   <= front_element_x grid_1000_700 1)%Q.
Proof. apply (markers_disjoint grid_1000_700 0 1). lia. Defined.
